(** * Code_Saturne CDO user settings: analytic evaluators and setup model

    Source files:
    - [SRC/EXAMPLES/cs_user_cdo-condif.c]: the three analytic callbacks
      [_define_adv_field], [_define_bcs], [_define_source] and the user
      routines [cs_user_cdo_add_mesh_locations], [cs_user_cdo_init_domain],
      [cs_user_cdo_set_domain];
    - [SRC/EXAMPLES/cs_user_cdo_numerics-examples.c]: the user routine
      [cs_user_cdo_numeric_settings] and the documentation of the keys of
      [cs_equation_set_option].

    Part I embeds the callbacks over an abstract arithmetic (the operations
    of [cs_real_t]) and gives two arithmetics to run them in: C [double],
    which is the program's, and the real numbers, which is the exact one.
    Part II models the kernel entry points the user routines call; their
    code is not part of these sources. *)

From Stdlib Require Import ZArith QArith Reals Lra Lia List String Ascii Bool.
From Stdlib Require Floats.
Import ListNotations.

Set Implicit Arguments.

(* ===================================================================== *)
(** * Part I.  The analytic callbacks *)
(* ===================================================================== *)

(** ** The arithmetic of [cs_real_t]

    [cs_real_t] is the kernel's real type, C [double]; the callbacks mix
    it freely with [double] locals.  They only use [+ - *], unary minus,
    one division ([1./3.]), the libm functions [sin], [cos], [atan],
    floating constants and [int] operands converted to [double].  The
    arithmetic is a parameter: the callbacks are written once against this
    interface, with the operations in the order C evaluates them. *)

Class RealArith (T : Type) := {
  radd : T -> T -> T;
  rsub : T -> T -> T;
  rmul : T -> T -> T;
  rdiv : T -> T -> T;
  ropp : T -> T;
  rsin : T -> T;
  rcos : T -> T;
  ratan : T -> T;
  (** a floating constant such as [0.5], given by its decimal value *)
  dbl : Q -> T;
  (** an [int] operand converted to [double] *)
  of_int : Z -> T
}.

Arguments dbl {T _} _%_Q.
Arguments of_int {T _} _%_Z.

Declare Scope cs_scope.
Delimit Scope cs_scope with cs.
Infix "+" := radd : cs_scope.
Infix "-" := rsub : cs_scope.
Infix "*" := rmul : cs_scope.
Infix "/" := rdiv : cs_scope.
Notation "- x" := (ropp x) : cs_scope.

(** ** Arrays [cs_real_3_t], [cs_real_33_t] and the union [cs_get_t] *)

(** The constant subscripts [0], [1], [2] of a 3-array. *)
Inductive ix3 : Set := i0 | i1 | i2.

Definition ix3_eqb (i j : ix3) : bool :=
  match i, j with
  | i0, i0 | i1, i1 | i2, i2 => true
  | _, _ => false
  end.

Section Arrays.
Variable T : Type.

(** Modelled from the spec: [cs_real_3_t], declared in a kernel header
    outside these sources, is the position [(x,y,z)] the evaluator is
    called at; the callbacks read it as [xyz[0]], [xyz[1]], [xyz[2]]. *)
Record cs_real_3_t : Type := mk3 { e0 : T; e1 : T; e2 : T }.

(** [v[i]] *)
Definition at3 (v : cs_real_3_t) (i : ix3) : T :=
  match i with i0 => e0 v | i1 => e1 v | i2 => e2 v end.

(** [v[i] = a] *)
Definition upd3 (v : cs_real_3_t) (i : ix3) (a : T) : cs_real_3_t :=
  match i with
  | i0 => mk3 a (e1 v) (e2 v)
  | i1 => mk3 (e0 v) a (e2 v)
  | i2 => mk3 (e0 v) (e1 v) a
  end.
End Arrays.

Arguments mk3 {T} _ _ _.

Section Union.
Variable T : Type.

(** Modelled from the spec: [cs_real_33_t], declared in a kernel header
    outside these sources, is the 3x3 tensor; [_define_source] fills one as
    [cond[i][j]], three rows of three values. *)
Definition cs_real_33_t : Type := cs_real_3_t (cs_real_3_t T).

Definition at33 (m : cs_real_33_t) (i j : ix3) : T := at3 (at3 m i) j.

(** Modelled from the spec: the output union [cs_get_t], whose declaration
    is in a kernel header outside these sources.  The spec describes it
    as the [get] out-parameter holding either a scalar or a vector or a
    tensor.  All members of a C union start at the same address, so the
    union is kept as the nine [cs_real_t] cells of its largest member
    [tens]; [val] is the first cell and [vect] the first row. *)
Record cs_get_t : Type := mk_get { tens : cs_real_33_t }.

(** [get->val] *)
Definition get_val (get : cs_get_t) : T := at33 (tens get) i0 i0.

(** [get->vect] *)
Definition get_vect (get : cs_get_t) : cs_real_3_t T := at3 (tens get) i0.

(** [get->vect[i] = a] *)
Definition set_vect (i : ix3) (a : T) (get : cs_get_t) : cs_get_t :=
  mk_get (upd3 (tens get) i0 (upd3 (at3 (tens get) i0) i a)).

(** [get->val = a] *)
Definition set_val (a : T) (get : cs_get_t) : cs_get_t := set_vect i0 a get.

(** The cell [tens[i][j]] of the storage. *)
Definition cell (get : cs_get_t) (i j : ix3) : T := at33 (tens get) i j.
End Union.

(** ** The callbacks of cs_user_cdo-condif.c *)

Section Callbacks.
Context {T : Type} {A : RealArith T}.
Local Open Scope cs_scope.

(** [static const double one_third = 1./3.;] *)
Definition one_third : T := dbl 1.0 / dbl 3.0.

(** [_define_adv_field], lines 92-102. *)
Definition _define_adv_field (time : T) (xyz : cs_real_3_t T)
    (get : cs_get_t T) : cs_get_t T :=
  let x := at3 xyz i0 in
  let y := at3 xyz i1 in
  let z := at3 xyz i2 in
  let get := set_vect i0 (y - dbl 0.5) get in
  let get := set_vect i1 (dbl 0.5 - x) get in
  set_vect i2 z get.

(** [_define_bcs], lines 108-121. *)
Definition _define_bcs (time : T) (xyz : cs_real_3_t T)
    (get : cs_get_t T) : cs_get_t T :=
  let bcval := dbl 0.0 in
  let x := at3 xyz i0 in
  let y := at3 xyz i1 in
  let z := at3 xyz i2 in
  let pi := dbl 4.0 * ratan (dbl 1.0) in
  let bcval :=
    of_int 1 + rsin (pi * x) * rsin (pi * (y + dbl 0.5))
            * rsin (pi * (z + one_third)) in
  set_val bcval get.

(** [_define_source], lines 127-160.  The compound assignments [*=] and
    [+=] read [get->val] back from the union. *)
Definition _define_source (time : T) (xyz : cs_real_3_t T)
    (get : cs_get_t T) : cs_get_t T :=
  let x := at3 xyz i0 in
  let y := at3 xyz i1 in
  let z := at3 xyz i2 in
  let pi := dbl 4.0 * ratan (dbl 1.0) in
  let pi2 := pi * pi in
  let cpx := rcos (pi * x) in
  let spx := rsin (pi * x) in
  let cpy := rcos (pi * (y + dbl 0.5)) in
  let spy := rsin (pi * (y + dbl 0.5)) in
  let cpz := rcos (pi * (z + one_third)) in
  let spz := rsin (pi * (z + one_third)) in
  (* first derivatives *)
  let gx := pi * cpx * spy * spz in
  let gy := pi * spx * cpy * spz in
  let gz := pi * spx * spy * cpz in
  (* second derivatives *)
  let gzz := - pi2 * spx * spy * spz in
  let gyy := gzz in
  let gxx := gyy in
  let gxy := pi2 * cpx * cpy * spz in
  let gxz := pi2 * cpx * spy * cpz in
  let gyz := pi2 * spx * cpy * cpz in
  (* material property *)
  let cond : cs_real_33_t T :=
    mk3 (mk3 (dbl 1.0) (dbl 0.5) (dbl 0.0))
        (mk3 (dbl 0.5) (dbl 1.0) (dbl 0.5))
        (mk3 (dbl 0.0) (dbl 0.5) (dbl 1.0)) in
  (* contribution of the diffusive part *)
  let get :=
    set_val (at33 cond i0 i0 * gxx + at33 cond i1 i1 * gyy
             + at33 cond i2 i2 * gzz
             + of_int 2 * (at33 cond i0 i1 * gxy + at33 cond i0 i2 * gxz
                        + at33 cond i1 i2 * gyz)) get in
  let get := set_val (get_val get * of_int (-1)) get in
  (* contribution of the advection term *)
  set_val (get_val get
           + ((y - dbl 0.5) * gx + (dbl 0.5 - x) * gy + z * gz + of_int 1
              + spx * spy * spz)) get.
End Callbacks.

(** ** The exact arithmetic: the real numbers

    On this instance [cs_real_t] is the field of real numbers and [sin],
    [cos], [atan] are the real functions.  It is not the arithmetic the
    program runs in, which rounds the result of every operation (see
    [Double] below): it gives the function each callback would compute if
    no operation rounded. *)
#[export] Instance RealArith_R : RealArith R := {|
  radd := Rplus;
  rsub := Rminus;
  rmul := Rmult;
  rdiv := Rdiv;
  ropp := Ropp;
  rsin := sin;
  rcos := cos;
  ratan := atan;
  dbl := Q2R;
  of_int := IZR
|}.

Module Manufactured.
Local Open Scope R_scope.

(** A point [(x,y,z)]. *)
Definition point : Type := cs_real_3_t R.

(** The exact solution of the verification case, as the specification
    writes it: [u = 1 + sin(pi x) sin(pi (y+0.5)) sin(pi (z+1/3))]. *)
Definition u_exact (p : point) : R :=
  1 + sin (PI * at3 p i0) * sin (PI * (at3 p i1 + 0.5))
      * sin (PI * (at3 p i2 + 1 / 3)).

(** The diffusion tensor [K = [[1,.5,0],[.5,1,.5],[0,.5,1]]]. *)
Definition K (i j : ix3) : R :=
  match i, j with
  | i0, i0 => 1   | i0, i1 => 0.5 | i0, i2 => 0
  | i1, i0 => 0.5 | i1, i1 => 1   | i1, i2 => 0.5
  | i2, i0 => 0   | i2, i1 => 0.5 | i2, i2 => 1
  end.

(** The advection field [beta = (y-0.5, 0.5-x, z)]. *)
Definition beta (p : point) : point :=
  mk3 (at3 p i1 - 0.5) (0.5 - at3 p i0) (at3 p i2).


(** The offset of each sine factor of [u]. *)
Definition phase (i : ix3) : R :=
  match i with i0 => 0 | i1 => 0.5 | i2 => 1 / 3 end.

(** [wave d c t]: the derivative of order [d] (0, 1 or 2) of
    [t |-> sin (pi (t + c))]. *)
Definition wave (d : nat) (c t : R) : R :=
  match d with
  | O => sin (PI * (t + c))
  | S O => PI * cos (PI * (t + c))
  | _ => - (PI * PI) * sin (PI * (t + c))
  end.

(** The product of the three factors, each differentiated [n i] times. *)
Definition du (n : ix3 -> nat) (p : point) : R :=
  wave (n i0) (phase i0) (at3 p i0) * wave (n i1) (phase i1) (at3 p i1)
  * wave (n i2) (phase i2) (at3 p i2).

(** One more derivative along axis [i]. *)
Definition bump (i : ix3) (n : ix3 -> nat) : ix3 -> nat :=
  fun k => if ix3_eqb i k then S (n k) else n k.

Definition order0 : ix3 -> nat := fun _ => O.

(** Closed forms of the first and second partial derivatives of [u]. *)
Definition grad_u (i : ix3) (p : point) : R := du (bump i order0) p.
Definition hess_u (i j : ix3) (p : point) : R :=
  du (bump j (bump i order0)) p.

Definition sum3 (f : ix3 -> R) : R := f i0 + f i1 + f i2.

(** [-(sum_i K_ii d2u/dx_i^2 + 2 sum_{i<j} K_ij d2u/dx_i dx_j)] *)
Definition diffusion_contribution (p : point) : R :=
  - (sum3 (fun i => K i i * hess_u i i p)
     + 2 * (K i0 i1 * hess_u i0 i1 p + K i0 i2 * hess_u i0 i2 p
            + K i1 i2 * hess_u i1 i2 p)).

(** [beta . grad u] *)
Definition advection_contribution (p : point) : R :=
  sum3 (fun i => at3 (beta p) i * grad_u i p).

(** The zero-order term of the manufactured source: [u] itself. *)
Definition reaction_contribution (p : point) : R := u_exact p.

Definition manufactured_source (p : point) : R :=
  diffusion_contribution p + advection_contribution p
  + reaction_contribution p.

End Manufactured.

(* ===================================================================== *)
(** * Part II.  The setup entry points called by the user routines *)
(* ===================================================================== *)

(** The user routines configure the computation through kernel entry points
    ([cs_equation_set_option], [cs_equation_link], ...) whose code is not
    part of these sources: only the calls and the comments that document
    them are.  They are modelled here from the specification. *)

(** ** Numbers given as text

    Settings reach the kernel as strings ([cs_equation_set_option(eq,
    "itsol_eps", "1e-12")], [cs_domain_set_time_step(..., "value", "1")]). *)

Module Text.
Local Open Scope string_scope.

Definition digit_of (c : ascii) : option N :=
  let n := N_of_ascii c in
  if ((48 <=? n) && (n <=? 57))%N then Some (n - 48)%N else None.

(** Reads the leading digits of [s] after the digits already read
    ([acc], [cnt] of them); returns the value, the count and the rest. *)
Fixpoint read_digits (s : string) (acc : N) (cnt : nat) : N * nat * string :=
  match s with
  | EmptyString => (acc, cnt, s)
  | String c r =>
      match digit_of c with
      | Some d => read_digits r (10 * acc + d)%N (S cnt)
      | None => (acc, cnt, s)
      end
  end.

Definition read_sign (s : string) : bool * string :=
  match s with
  | String "-" r => (true, r)
  | String "+" r => (false, r)
  | _ => (false, s)
  end.

Definition signed (neg : bool) (m : N) : Z :=
  if neg then (- Z.of_N m)%Z else Z.of_N m.

(** Modelled from the spec: a count such as ["2500"], digits only. *)
Definition parse_count (s : string) : option nat :=
  match read_digits s 0 0 with
  | (m, S _, EmptyString) => Some (N.to_nat m)
  | _ => None
  end.

(** Modelled from the spec: an integer such as ["-1"] or ["10"]. *)
Definition parse_int (s : string) : option Z :=
  let (neg, r) := read_sign s in
  match read_digits r 0 0 with
  | (m, S _, EmptyString) => Some (signed neg m)
  | _ => None
  end.

(** The exponent part: nothing, or [e] or [E] and a signed integer. *)
Definition read_exponent (s : string) : option Z :=
  match s with
  | EmptyString => Some 0%Z
  | String c r =>
      if (Ascii.eqb c "e" || Ascii.eqb c "E")%bool
      then parse_int r else None
  end.

(** [m * 10^e] *)
Definition scale10 (m e : Z) : Q :=
  if (0 <=? e)%Z then (m * 10 ^ e) # 1
  else m # Z.to_pos (10 ^ (- e)).

(** Modelled from the spec: the reading of a numeric setting, which the
    kernel does in code outside these sources; the specification has the
    values validated at call time.  A decimal number with an optional sign,
    fraction and exponent: ["1"], ["0.5"], ["-2.25"], ["1e-12"]. *)
Definition parse_decimal (s : string) : option Q :=
  let (neg, r0) := read_sign s in
  let '(m1, n1, r1) := read_digits r0 0 0 in
  let '(m2, n2, r2) :=
    match r1 with
    | String "." r => read_digits r m1 0
    | _ => (m1, O, r1)
    end in
  match (n1 + n2)%nat with
  | O => None
  | S _ =>
      match read_exponent r2 with
      | Some e => Some (scale10 (signed neg m2) (e - Z.of_nat n2))
      | None => None
      end
  end.
End Text.

(** ** Errors, warnings and results *)

(** Modelled from the spec: the error kinds of the setup phase (section 7),
    each with the context a user needs to fix the configuration. *)
Inductive error : Type :=
| DuplicateName (name : string)
| NotFound (name : string)
| ShapeMismatch (name : string)
| InvalidOption (key value : string)
| UnlinkedRole (equation role : string)
| OverlappingBoundaryCondition (location : string)
(** a failure for which the specification names no kind *)
| OtherFailure (what : string).

(** Modelled from the spec: a setup call either succeeds or fails at once
    with an error (sections 5 and 7). *)
Inductive result (A : Type) : Type :=
| Ok (a : A)
| Fail (e : error).

Arguments Ok {A} a.
Arguments Fail {A} e.

Definition bind {A B : Type} (r : result A) (k : A -> result B) : result B :=
  match r with
  | Ok a => k a
  | Fail e => Fail e
  end.

Notation "x <- c ;; k" := (bind c (fun x => k))
  (at level 61, c at next level, right associativity).

(** Modelled from the spec: a failed call commits nothing, the setup does
    not proceed with an outstanding error (section 7): the object a call
    was made on is, after the call, the new one on success and the old one
    on failure. *)
Definition after {S : Type} (old : S) (r : result S) : S :=
  match r with
  | Ok new => new
  | Fail _ => old
  end.

Definition succeeds {A : Type} (r : result A) : bool :=
  match r with Ok _ => true | Fail _ => false end.

(** ** Data model

    Modelled from the spec: the entities of section 3, whose declarations
    are in kernel headers outside these sources.  The enumerations carry
    the keywords listed in the comments of the user routines. *)

Inductive entity_kind : Set := Cell | InteriorFace | BoundaryFace | Vertex.
Inductive property_kind : Set := Isotropic | Orthotropic | Anisotropic.
Inductive boundary_kind : Set := Wall | Inlet | Outlet | Symmetry.
Inductive bc_type : Set := Dirichlet | Neumann | Robin.
Inductive def_method : Set := ByValue | ByAnalytic | ByUser.
Inductive quadrature : Set := Subdiv | Bary | Higher | Highest.
Inductive hodge_algo : Set := Voronoi | Cost | WhitneyBary.
Inductive value_shape : Set := ScalarShape | VectorShape | TensorShape.
Inductive default_bc : Set := ZeroValue | ZeroFlux.

(** The roles an equation links a property or an advection field to. *)
Inductive role : Set := RTime | RDiffusion | RAdvection.

(** The predefined equations a domain can activate; the sources name the
    wall distance. *)
Inductive predefined_equation : Set := WallDistance.

Definition predefined_eqb (t1 t2 : predefined_equation) : bool :=
  match t1, t2 with WallDistance, WallDistance => true end.

(** Modelled from the spec: the setup warning that flags a re-link
    (section 4.4). *)
Inductive warning : Set :=
| Relinked (r : role).

Section DataModel.
(** What an analytic definition refers to: a callback such as
    [_define_source]. *)
Variable EvaluatorRef : Type.

(** What the last argument of a definition call carries: a text for the
    method "value", a callback for "analytic" and "user". *)
Inductive payload : Type :=
| PText (s : string)
| PFunc (f : EvaluatorRef).

(** Modelled from the spec: [MeshLocation], a named selection of mesh
    entities such as [("in", boundary faces, "x < 1e-5")]. *)
Record MeshLocation : Type := mkMeshLocation {
  ml_name : string;
  ml_kind : entity_kind;
  ml_selection : string
}.

(** Modelled from the spec: [Property], with its definition once it is
    given. *)
Record Property : Type := mkProperty {
  pty_name : string;
  pty_kind : property_kind;
  pty_def : option (def_method * payload)
}.

(** Modelled from the spec: [AdvectionField]. *)
Record AdvectionField : Type := mkAdvectionField {
  adv_name : string;
  adv_def : option (def_method * payload)
}.

(** Modelled from the spec: [BoundaryCondition]. *)
Record BoundaryCondition : Type := mkBoundaryCondition {
  bc_location : string;
  bc_kind : bc_type;
  bc_method : def_method;
  bc_payload : payload
}.

(** Modelled from the spec: [SourceTerm]; the label is optional, the
    quadrature and the post-processing frequency are its two settings. *)
Record SourceTerm : Type := mkSourceTerm {
  st_label : option string;
  st_location : string;
  st_method : def_method;
  st_payload : payload;
  st_quadrature : quadrature;
  st_post : Z
}.

(** Modelled from the spec: [ReactionTerm]. *)
Record ReactionTerm : Type := mkReactionTerm {
  rt_label : option string;
  rt_hodge_algo : hodge_algo;
  rt_hodge_coef : string;
  rt_lumping : bool;
  rt_inv_pty : bool
}.

(** Modelled from the spec: the references handed out by the registries
    ([cs_domain_get_property], [cs_domain_get_advection_field]). *)
Record PropertyRef : Type := mkPropertyRef { pref_name : string }.
Record AdvectionFieldRef : Type := mkAdvectionFieldRef { aref_name : string }.

(** What [cs_equation_link] is given as structure to link. *)
Inductive target : Type :=
| TProperty (p : PropertyRef)
| TAdvectionField (a : AdvectionFieldRef).

(** Modelled from the spec: [links: {time: PropertyRef?, diffusion:
    PropertyRef?, advection: AdvectionFieldRef?}], at most one link per
    role. *)
Record Links : Type := mkLinks {
  lk_time : option PropertyRef;
  lk_diffusion : option PropertyRef;
  lk_advection : option AdvectionFieldRef
}.

(** Modelled from the spec: a validated setting of
    [cs_equation_set_option]. *)
Inductive option_value : Type :=
| VName (s : string)
| VNumber (q : Q)
| VCount (n : nat)
| VInteger (z : Z)
| VFlag (b : bool).

(** Modelled from the spec: [Equation].  Its scheme, solver, enforcement
    and post-processing settings are kept under the key they are set
    with. *)
Record Equation : Type := mkEquation {
  eq_name : string;
  eq_field : string;
  eq_shape : value_shape;
  eq_default_bc : default_bc;
  eq_options : list (string * option_value);
  eq_links : Links;
  eq_bcs : list BoundaryCondition;
  eq_sources : list SourceTerm;
  eq_reactions : list ReactionTerm
}.

(** Modelled from the spec: how the time step is defined, "value",
    "time_func" or "user"; the last two compute it from the iteration
    number and the time. *)
Inductive step_def : Type :=
| StepValue (dt : Q)
| StepTimeFunc (f : nat -> Q -> Q)
| StepUser (f : nat -> Q -> Q).

(** Modelled from the spec: the time-stepping policy [{maxSteps,
    finalTime, stepDefinition}]. *)
Record TimeStep : Type := mkTimeStep {
  ts_max_steps : nat;
  ts_final_time : Q;
  ts_step : step_def
}.

(** Modelled from the spec: [Domain], which owns the registries, the
    boundary classification, the time-stepping policy and the activated
    predefined equations. *)
Record Domain : Type := mkDomain {
  dom_default_boundary : boundary_kind;
  dom_boundaries : list (string * boundary_kind);
  dom_time_step : option TimeStep;
  dom_predefined : list predefined_equation;
  dom_locations : list MeshLocation;
  dom_properties : list Property;
  dom_adv_fields : list AdvectionField;
  dom_equations : list Equation
}.

(** ** Field updates *)

Definition with_options (o : list (string * option_value)) (e : Equation)
  : Equation :=
  mkEquation (eq_name e) (eq_field e) (eq_shape e) (eq_default_bc e) o
    (eq_links e) (eq_bcs e) (eq_sources e) (eq_reactions e).

Definition with_links (l : Links) (e : Equation) : Equation :=
  mkEquation (eq_name e) (eq_field e) (eq_shape e) (eq_default_bc e)
    (eq_options e) l (eq_bcs e) (eq_sources e) (eq_reactions e).


Definition with_quadrature (q : quadrature) (st : SourceTerm) : SourceTerm :=
  mkSourceTerm (st_label st) (st_location st) (st_method st)
    (st_payload st) q (st_post st).

Definition with_post (n : Z) (st : SourceTerm) : SourceTerm :=
  mkSourceTerm (st_label st) (st_location st) (st_method st)
    (st_payload st) (st_quadrature st) n.


Definition with_predefined (l : list predefined_equation) (d : Domain)
  : Domain :=
  mkDomain (dom_default_boundary d) (dom_boundaries d) (dom_time_step d)
    l (dom_locations d) (dom_properties d) (dom_adv_fields d)
    (dom_equations d).
End DataModel.

(** ** Keyword tables *)

Fixpoint assoc {A : Type} (k : string) (l : list (string * A)) : option A :=
  match l with
  | [] => None
  | (k', a) :: r => if String.eqb k k' then Some a else assoc k r
  end.

(** Replaces the entry under [k], or adds one: a key has one value. *)
Fixpoint store {A : Type} (k : string) (a : A) (l : list (string * A))
  : list (string * A) :=
  match l with
  | [] => [(k, a)]
  | (k', a') :: r =>
      if String.eqb k k' then (k, a) :: r else (k', a') :: store k a r
  end.

(** Modelled from the spec: the values a key accepts, an enumeration of
    names, a number, a number in a range, a count, an integer or a flag. *)
Inductive value_domain : Type :=
| Names (l : list string)
| NamesOrPositive (l : list string)
| Number
| NumberIn (lo hi : Q)
| Count
| Integer
| Flag.

Local Open Scope string_scope.

(** The keys of [cs_equation_set_option] and their values, after the
    comment block of [cs_user_cdo_numeric_settings] (lines 119-232).  The
    comment spells the first key "scheme_space"; the call at line 236 uses
    "space_scheme". *)
Definition option_keys : list (string * value_domain) :=
  [ ("space_scheme", Names ["cdo_vb"; "cdo_fb"]);
    ("verbosity", Count);
    ("hodge_diff_algo", Names ["voronoi"; "cost"; "wbs"]);
    ("hodge_time_algo", Names ["voronoi"; "cost"; "wbs"]);
    ("hodge_diff_coef", NamesOrPositive ["dga"; "sushi"; "gcr"]);
    ("hodge_time_coef", NamesOrPositive ["dga"; "sushi"; "gcr"]);
    ("solver_family", Names ["cs"; "petsc"; "newton"]);
    ("itsol", Names ["cg"; "bicg"; "gmres"; "amg"]);
    ("precond",
     Names ["jacobi"; "poly1"; "ssor"; "ilu0"; "icc0"; "amg"; "as"]);
    ("itsol_max_iter", Count);
    ("itsol_eps", Number);
    ("itsol_resnorm", Flag);
    ("bc_enforcement",
     Names ["strong"; "penalization"; "nitsche"; "sym_nitsche"]);
    ("bc_quadrature", Names ["subdiv"; "bary"; "higher"; "highest"]);
    ("time_scheme",
     Names ["implicit"; "explicit"; "crank_nicolson"; "theta_scheme"]);
    ("time_theta", NumberIn 0 1);
    ("post_freq", Integer);
    ("post", Names ["peclet"; "upwind_coef"]);
    ("adv_weight", Names ["upwind"; "centered"; "samarskii"; "sg"; "d10g5"]);
    ("adv_weight_criterion", Names ["xexc"; "flux"]) ].

(** The quadrature keywords (cs_user_cdo-condif.c, lines 499-503). *)
Definition quadratures : list (string * quadrature) :=
  [ ("subdiv", Subdiv); ("bary", Bary); ("higher", Higher);
    ("highest", Highest) ].

(** The term keywords of [cs_equation_link] (lines 452-453). *)
Definition roles : list (string * role) :=
  [ ("time", RTime); ("diffusion", RDiffusion); ("advection", RAdvection) ].

Definition in_range (lo hi q : Q) : bool := Qle_bool lo q && Qle_bool q hi.

Definition is_name (l : list string) (v : string) : bool :=
  existsb (String.eqb v) l.

(** Modelled from the spec: the validation of a value at call time; checks
    the text [v] against the domain of its key and reads it. *)
Definition validate (d : value_domain) (v : string) : option option_value :=
  match d with
  | Names l => if is_name l v then Some (VName v) else None
  | NamesOrPositive l =>
      if is_name l v then Some (VName v)
      else match Text.parse_decimal v with
           | Some q => if Qle_bool q 0 then None else Some (VNumber q)
           | None => None
           end
  | Number => option_map VNumber (Text.parse_decimal v)
  | NumberIn lo hi =>
      match Text.parse_decimal v with
      | Some q => if in_range lo hi q then Some (VNumber q) else None
      | None => None
      end
  | Count => option_map VCount (Text.parse_count v)
  | Integer => option_map VInteger (Text.parse_int v)
  | Flag =>
      if String.eqb v "true" then Some (VFlag true)
      else if String.eqb v "false" then Some (VFlag false)
      else None
  end.

Section Setup.
Variable EvaluatorRef : Type.

Abbreviation Equation := (Equation EvaluatorRef).
Abbreviation SourceTerm := (SourceTerm EvaluatorRef).
Abbreviation Domain := (Domain EvaluatorRef).

(** ** Equation options *)

(** Modelled from the spec: [cs_equation_set_option], the [setOption] of
    section 4.4, whose code is not part of these sources.  It validates
    the key against the fixed set of keys and rejects an unknown key or a
    value outside the key's domain with [InvalidOption]; a valid setting
    replaces the one the key had. *)
Definition cs_equation_set_option (eq : Equation) (key val : string)
  : result Equation :=
  match assoc key option_keys with
  | None => Fail (InvalidOption key val)
  | Some d =>
      match validate d val with
      | None => Fail (InvalidOption key val)
      | Some x => Ok (with_options (store key x (eq_options eq)) eq)
      end
  end.

(** The setting an equation has under a key. *)
Definition option_of (eq : Equation) (key : string) : option option_value :=
  assoc key (eq_options eq).

(** ** Source-term options *)


(** The keys "quadrature" and "post" (cs_user_cdo-condif.c, lines
    494-503). *)
Definition source_term_setting (key val : string)
  : option (SourceTerm -> SourceTerm) :=
  if String.eqb key "quadrature"
  then option_map (@with_quadrature EvaluatorRef) (assoc val quadratures)
  else if String.eqb key "post"
  then option_map (@with_post EvaluatorRef) (Text.parse_int val)
  else None.



End Setup.


Section Linking.
Variable EvaluatorRef : Type.

Abbreviation Equation := (Equation EvaluatorRef).

(** ** Linking an equation to its terms *)

(** A property serves the roles "time" and "diffusion", an advection field
    the role "advection" (cs_user_cdo-condif.c, lines 454-456). *)
Definition valid_target (r : role) (t : target) : bool :=
  match r, t with
  | RTime, TProperty _ | RDiffusion, TProperty _ => true
  | RAdvection, TAdvectionField _ => true
  | _, _ => false
  end.

(** The link an equation has for a role. *)
Definition active_link (eq : Equation) (r : role) : option target :=
  match r with
  | RTime => option_map TProperty (lk_time (eq_links eq))
  | RDiffusion => option_map TProperty (lk_diffusion (eq_links eq))
  | RAdvection => option_map TAdvectionField (lk_advection (eq_links eq))
  end.

(** All the links an equation has for a role. *)
Definition links_of (eq : Equation) (r : role) : list target :=
  match active_link eq r with
  | Some t => [t]
  | None => []
  end.

(** Linking a role that already has a link is flagged. *)
Definition relink_warning (eq : Equation) (r : role) : list warning :=
  match active_link eq r with
  | Some _ => [Relinked r]
  | None => []
  end.

(** Modelled from the spec: the [link] of section 4.4, whose code is not
    part of these sources.  It fails if the target is a property and the
    role requires an advection field or vice versa; re-linking a role
    overwrites the previous link and is flagged as a setup warning.  The
    result carries the warnings the call raises. *)
Definition link (eq : Equation) (r : role) (t : target)
  : result (Equation * list warning) :=
  let l := eq_links eq in
  let w := relink_warning eq r in
  match r, t with
  | RTime, TProperty p =>
      Ok (with_links (mkLinks (Some p) (lk_diffusion l) (lk_advection l)) eq, w)
  | RDiffusion, TProperty p =>
      Ok (with_links (mkLinks (lk_time l) (Some p) (lk_advection l)) eq, w)
  | RAdvection, TAdvectionField a =>
      Ok (with_links (mkLinks (lk_time l) (lk_diffusion l) (Some a)) eq, w)
  | _, _ => Fail (OtherFailure "link")
  end.

(** Modelled from the spec: [cs_equation_link], which takes the role as a
    keyword among "diffusion", "time" and "advection". *)
Definition cs_equation_link (eq : Equation) (keyword : string) (t : target)
  : result (Equation * list warning) :=
  match assoc keyword roles with
  | Some r => link eq r t
  | None => Fail (InvalidOption "term_keyword" keyword)
  end.

(** Two links in sequence, keeping the warnings of both. *)
Definition link_then (r : result (Equation * list warning)) (keyword : string)
    (t : target) : result (Equation * list warning) :=
  p <- r ;;
  q <- cs_equation_link (fst p) keyword t ;;
  Ok (fst q, (snd p ++ snd q)%list).

(** The links of [cs_user_cdo_set_domain], lines 460-465.  In the file as
    shipped these statements follow the [return;] that opens the routine
    (REMOVE_LINE_FOR_USE_OF_SUBROUTINE). *)
Definition set_domain_links (eq : Equation) (rhocp conductivity : PropertyRef)
    (adv : AdvectionFieldRef) : result (Equation * list warning) :=
  (* Activate unsteady effect *)
  let r := cs_equation_link eq "time" (TProperty rhocp) in
  (* Activate diffusion effect *)
  let r := link_then r "diffusion" (TProperty conductivity) in
  (* Activate advection effect *)
  link_then r "advection" (TAdvectionField adv).

End Linking.

Section DomainSetup.
Variable EvaluatorRef : Type.

Abbreviation Domain := (Domain EvaluatorRef).

(** ** Time stepping *)












(** ** Predefined equations *)

Definition is_activated (tag : predefined_equation) (domain : Domain) : bool :=
  existsb (predefined_eqb tag) (dom_predefined domain).

(** Modelled from the spec: the [activatePredefinedEquation] of section
    4.5, whose code is not part of these sources: idempotent, activating
    twice is a no-op, not an error. *)
Definition activatePredefinedEquation (tag : predefined_equation)
    (domain : Domain) : result Domain :=
  if is_activated tag domain then Ok domain
  else Ok (with_predefined (tag :: dom_predefined domain) domain).

(** [cs_domain_activate_wall_distance(domain)] *)
Definition cs_domain_activate_wall_distance (domain : Domain) : result Domain :=
  activatePredefinedEquation WallDistance domain.


(** The activation statement of [cs_user_cdo_init_domain], line 280. *)
Definition init_domain_wall_distance (domain : Domain) : result Domain :=
  cs_domain_activate_wall_distance domain.
End DomainSetup.

(** ** An equation and a domain to run the model on *)

(** The prototype of the analytic callbacks. *)
Definition cs_analytic_func_t (T : Type) : Type :=
  T -> cs_real_3_t T -> cs_get_t T -> cs_get_t T.

(** An equation like the "AdvDiff" of [cs_user_cdo_init_domain] (lines
    298-302), with the boundary condition and the source term that
    [cs_user_cdo_set_domain] gives it (lines 440-444 and 478-482).  The
    sources do not say which quadrature and post-processing frequency a new
    source term has; the example takes [Highest] and [-1]. *)
Definition example_equation : Equation (cs_analytic_func_t R) :=
  mkEquation "AdvDiff" "Potential" ScalarShape ZeroValue []
    (mkLinks None None None)
    [mkBoundaryCondition "boundary_faces" Dirichlet ByAnalytic
       (PFunc _define_bcs)]
    [mkSourceTerm (Some "SourceTerm") "cells" ByAnalytic
       (PFunc _define_source) Highest (-1)]
    [].

(** A domain holding this equation, with nothing else set. *)
Definition example_domain : Domain (cs_analytic_func_t R) :=
  mkDomain Wall [] None [] [] [] [] [example_equation].

(** ** The conductivity of the source term, and notions to state its
    properties *)

Section Conductivity.
Context {T : Type} {A : RealArith T}.

(** The array [cond] as [_define_source] fills it, lines 149-151. *)
Definition cond_tensor : cs_real_33_t T :=
  mk3 (mk3 (dbl 1.0) (dbl 0.5) (dbl 0.0))
      (mk3 (dbl 0.5) (dbl 1.0) (dbl 0.5))
      (mk3 (dbl 0.0) (dbl 0.5) (dbl 1.0)).
End Conductivity.

Module Analysis.
Import Manufactured.
Local Open Scope R_scope.

(** The quadratic form [v . M v] of a tensor. *)
Definition quad (M : cs_real_33_t R) (v : point) : R :=
  sum3 (fun i => sum3 (fun j => at33 M i j * at3 v i * at3 v j)).

(** The squared length of a vector. *)
Definition norm2 (v : point) : R := sum3 (fun i => at3 v i * at3 v i).

(** The full contraction [sum_ij M_ij H_ij] of a tensor with a table of
    second derivatives. *)
Definition contract (M : cs_real_33_t R) (H : ix3 -> ix3 -> R) : R :=
  sum3 (fun i => sum3 (fun j => at33 M i j * H i j)).

End Analysis.

(** ** The arithmetic of the program: C [double]

    [cs_real_t] is C [double], IEEE 754 binary64 with rounding to nearest,
    ties to even: the primitive [float] with its [+ - * /].  Each operation
    of the callbacks rounds on its own, as in code compiled for SSE2 with
    neither extended precision nor fused multiply-add.  The functions
    [sin], [cos] and [atan] are those of the C library; IEEE 754 does not
    fix their results, so they are a parameter of the arithmetic. *)

Module Double.
Import PrimFloat FloatOps SpecFloat.

(** The three functions of the C library that the callbacks call. *)
Record libm : Type := mk_libm {
  m_sin : float -> float;
  m_cos : float -> float;
  m_atan : float -> float
}.

(** An [int] operand converted to [double]; exact, an [int] having 32
    bits. *)
Definition of_Z (z : Z) : float :=
  match z with
  | Z0 => 0%float
  | Zpos _ => of_uint63 (Uint63.of_Z z)
  | Zneg p => (- of_uint63 (Uint63.of_Z (Zpos p)))%float
  end.

(** A floating constant, given by its decimal value.  The numerator and
    the denominator of every constant of the callbacks are below [2^53]:
    both are doubles, and their correctly rounded quotient is the double
    nearest to the decimal. *)
Definition of_Q (q : Q) : float := (of_Z (Qnum q) / of_Z (Zpos (Qden q)))%float.

Definition arith (m : libm) : RealArith float := {|
  radd := add;
  rsub := sub;
  rmul := mul;
  rdiv := div;
  ropp := opp;
  rsin := m_sin m;
  rcos := m_cos m;
  ratan := m_atan m;
  dbl := of_Q;
  of_int := of_Z
|}.

(** [2^e] as a real number. *)
Definition pow2 (e : Z) : R :=
  if (0 <=? e)%Z then IZR (2 ^ e) else (/ IZR (2 ^ (- e)))%R.

(** The real number a double stands for; an infinity or a NaN stands for
    none. *)
Definition value (f : float) : option R :=
  match Prim2SF f with
  | S754_zero _ => Some 0%R
  | S754_finite s m e => Some (IZR (if s then Zneg m else Zpos m) * pow2 e)%R
  | S754_infinity _ | S754_nan => None
  end.

(** Neither an infinity nor a NaN. *)
Definition finite (f : float) : bool :=
  match Prim2SF f with
  | S754_zero _ | S754_finite _ _ _ => true
  | S754_infinity _ | S754_nan => false
  end.

(** The point of space a triple of doubles stands for. *)
Definition position (xyz : cs_real_3_t float) : option (cs_real_3_t R) :=
  match value (at3 xyz i0), value (at3 xyz i1), value (at3 xyz i2) with
  | Some x, Some y, Some z => Some (mk3 x y z)
  | _, _, _ => None
  end.


(** [agrees f t]: the function [f] has the results listed in [t], a list of
    pairs (argument, result). *)
Fixpoint agrees (f : float -> float) (t : list (float * float)) : Prop :=
  match t with
  | [] => True
  | (a, b) :: t => f a = b /\ agrees f t
  end.

(** A function that has the results listed in [t] (and is 0 elsewhere):
    there are C libraries with these results. *)
Fixpoint table (t : list (float * float)) (a : float) : float :=
  match t with
  | [] => 0%float
  | (k, v) :: t => if (k =? a)%float then v else table t a
  end.
End Double.

(** ** The formulas of the manufactured case, evaluated in the arithmetic

    The exact solution, the closed forms of its derivatives and the three
    contributions to the source term, each written once with the operations
    of the arithmetic: what they are worth depends on how the arithmetic
    rounds. *)

Section MachineForms.
Context {T : Type} {A : RealArith T}.
Local Open Scope cs_scope.

(** [pi], which both scalar callbacks compute as [4.0*atan(1.0)]. *)
Definition machine_pi : T := dbl 4.0 * ratan (dbl 1.0).

(** The arguments [pi x], [pi (y + 0.5)] and [pi (z + 1/3)] of the
    trigonometric functions. *)
Definition angle (i : ix3) (xyz : cs_real_3_t T) : T :=
  match i with
  | i0 => machine_pi * at3 xyz i0
  | i1 => machine_pi * (at3 xyz i1 + dbl 0.5)
  | i2 => machine_pi * (at3 xyz i2 + one_third)
  end.

(** [sin(pi x) sin(pi (y+0.5)) sin(pi (z+1/3))] *)
Definition sine_product (xyz : cs_real_3_t T) : T :=
  rsin (angle i0 xyz) * rsin (angle i1 xyz) * rsin (angle i2 xyz).

(** [u = 1 + sin(pi x) sin(pi (y+0.5)) sin(pi (z+1/3))] *)
Definition u_machine (xyz : cs_real_3_t T) : T :=
  of_int 1 + sine_product xyz.

(** The closed form of the first derivative of [u] along axis [i]. *)
Definition grad_machine (i : ix3) (xyz : cs_real_3_t T) : T :=
  let a := angle i0 xyz in
  let b := angle i1 xyz in
  let c := angle i2 xyz in
  match i with
  | i0 => machine_pi * rcos a * rsin b * rsin c
  | i1 => machine_pi * rsin a * rcos b * rsin c
  | i2 => machine_pi * rsin a * rsin b * rcos c
  end.

(** The closed form of the second derivative of [u] along axes [i] and
    [j]. *)
Definition hess_machine (i j : ix3) (xyz : cs_real_3_t T) : T :=
  let a := angle i0 xyz in
  let b := angle i1 xyz in
  let c := angle i2 xyz in
  let pi2 := machine_pi * machine_pi in
  match i, j with
  | i0, i0 | i1, i1 | i2, i2 => - pi2 * rsin a * rsin b * rsin c
  | i0, i1 | i1, i0 => pi2 * rcos a * rcos b * rsin c
  | i0, i2 | i2, i0 => pi2 * rcos a * rsin b * rcos c
  | i1, i2 | i2, i1 => pi2 * rsin a * rcos b * rcos c
  end.

(** The diffusion contribution
    [-(sum_i K_ii d2u/dx_i^2 + 2 sum_{i<j} K_ij d2u/dx_i dx_j)], with the
    conductivity [cond_tensor] for [K]. *)
Definition diffusion_machine (xyz : cs_real_3_t T) : T :=
  (at33 cond_tensor i0 i0 * hess_machine i0 i0 xyz
   + at33 cond_tensor i1 i1 * hess_machine i1 i1 xyz
   + at33 cond_tensor i2 i2 * hess_machine i2 i2 xyz
   + of_int 2 * (at33 cond_tensor i0 i1 * hess_machine i0 i1 xyz
                 + at33 cond_tensor i0 i2 * hess_machine i0 i2 xyz
                 + at33 cond_tensor i1 i2 * hess_machine i1 i2 xyz))
  * of_int (-1).

(** The advection field [beta = (y - 0.5, 0.5 - x, z)]. *)
Definition beta_machine (xyz : cs_real_3_t T) : cs_real_3_t T :=
  mk3 (at3 xyz i1 - dbl 0.5) (dbl 0.5 - at3 xyz i0) (at3 xyz i2).

(** The advection contribution [beta . grad u]. *)
Definition advection_machine (xyz : cs_real_3_t T) : T :=
  at3 (beta_machine xyz) i0 * grad_machine i0 xyz
  + at3 (beta_machine xyz) i1 * grad_machine i1 xyz
  + at3 (beta_machine xyz) i2 * grad_machine i2 xyz.
End MachineForms.

(** ** Proof steps *)

(** Unfolds the accessors of the arrays and the operations of the real
    instance. *)
Ltac read_over_reals :=
  cbn [get_val get_vect set_val set_vect at33 at3 upd3 tens e0 e1 e2
       Manufactured.bump ix3_eqb Manufactured.order0 Manufactured.wave
       Manufactured.phase radd rsub rmul ropp rsin rcos ratan dbl of_int
       RealArith_R].

(* ===================================================================== *)
(** * Part III.  Properties of the analytic callbacks *)
(* ===================================================================== *)

Unset Implicit Arguments.

Section CallbackFrame.
Context {T : Type} {A : RealArith T}.

(** Reading the union after a write. *)

Lemma get_val_set_val (a : T) (get : cs_get_t T) : get_val (set_val a get) = a.
Proof. reflexivity. Qed.

Lemma cell_set_vect (i j k : ix3) (a : T) (get : cs_get_t T) :
  cell (set_vect k a get) i j
  = if ix3_eqb i i0 && ix3_eqb j k then a else cell get i j.
Proof. destruct get as [[r0 r1 r2]]; destruct i, j, k; reflexivity. Qed.

(** The three stores of [_define_adv_field] fill the member [vect]. *)
Lemma define_adv_field_vect (time : T) (xyz : cs_real_3_t T)
    (get : cs_get_t T) :
  get_vect (_define_adv_field time xyz get)
  = mk3 (rsub (at3 xyz i1) (dbl 0.5)) (rsub (dbl 0.5) (at3 xyz i0))
        (at3 xyz i2).
Proof. reflexivity. Qed.

(** [_define_adv_field] changes the first row of the union only. *)
Lemma define_adv_field_overwrites (time : T) (xyz : cs_real_3_t T)
    (get : cs_get_t T) :
  _define_adv_field time xyz get
  = mk_get (upd3 (tens get) i0
              (mk3 (rsub (at3 xyz i1) (dbl 0.5)) (rsub (dbl 0.5) (at3 xyz i0))
                   (at3 xyz i2))).
Proof. reflexivity. Qed.

(** [_define_source] and [_define_bcs] change the cell [val] only; the
    reads of the compound assignments of [_define_source] see what the
    routine has just stored. *)
Lemma define_source_overwrites (time : T) (xyz : cs_real_3_t T)
    (get : cs_get_t T) :
  _define_source time xyz get
  = set_val (get_val (_define_source time xyz get)) get.
Proof. reflexivity. Qed.

Lemma define_bcs_overwrites (time : T) (xyz : cs_real_3_t T)
    (get : cs_get_t T) :
  _define_bcs time xyz get = set_val (get_val (_define_bcs time xyz get)) get.
Proof. reflexivity. Qed.

Lemma define_source_val_indep (time : T) (xyz : cs_real_3_t T)
    (get1 get2 : cs_get_t T) :
  get_val (_define_source time xyz get1)
  = get_val (_define_source time xyz get2).
Proof. reflexivity. Qed.

(** The sums the two scalar callbacks form, written with the formulas of
    the manufactured case. *)
Lemma define_bcs_sum (time : T) (xyz : cs_real_3_t T) (get : cs_get_t T) :
  get_val (_define_bcs time xyz get) = radd (of_int 1) (sine_product xyz).
Proof. destruct xyz as [x y z]. reflexivity. Qed.

Lemma define_source_sum (time : T) (xyz : cs_real_3_t T) (get : cs_get_t T) :
  get_val (_define_source time xyz get)
  = radd (diffusion_machine xyz)
      (radd (radd (advection_machine xyz) (of_int 1)) (sine_product xyz)).
Proof. destruct xyz as [x y z]. reflexivity. Qed.
End CallbackFrame.

Section RealReading.
Import Manufactured.
Local Open Scope R_scope.

(** ** Constants of the callbacks over the reals *)

Lemma Q2R_0 : Q2R 0.0 = 0.
Proof. unfold Q2R; simpl; lra. Qed.

Lemma Q2R_1 : Q2R 1.0 = 1.
Proof. unfold Q2R; simpl; lra. Qed.

Lemma Q2R_3 : Q2R 3.0 = 3.
Proof. unfold Q2R; simpl; lra. Qed.

Lemma Q2R_4 : Q2R 4.0 = 4.
Proof. unfold Q2R; simpl; lra. Qed.

Lemma half_R : 0.5 = 1 / 2.
Proof. lra. Qed.

(** [pi = 4.0*atan(1.0)] is the number pi. *)
Lemma pi_code : Q2R 4.0 * atan (Q2R 1.0) = PI.
Proof. rewrite Q2R_1, Q2R_4, atan_1. lra. Qed.

Lemma one_third_R : one_third (T := R) = 1 / 3.
Proof. unfold one_third; simpl. rewrite Q2R_1, Q2R_3. reflexivity. Qed.

(** ** Derivatives of the exact solution *)





Lemma u_exact_du (p : point) : u_exact p = 1 + du order0 p.
Proof.
  unfold u_exact, du, order0, wave, phase.
  replace (at3 p i0 + 0) with (at3 p i0) by ring. reflexivity.
Qed.



Lemma hess_u_sym (i j : ix3) (p : point) : hess_u i j p = hess_u j i p.
Proof. destruct i, j; reflexivity. Qed.

(** ** What [_define_source] computes over the reals *)

Lemma define_source_val (time : R) (xyz : point) (get : cs_get_t R) :
  get_val (_define_source time xyz get) = manufactured_source xyz.
Proof.
  destruct xyz as [x y z].
  unfold _define_source, manufactured_source, diffusion_contribution,
    advection_contribution, reaction_contribution, u_exact, sum3, grad_u,
    hess_u, du, beta, K.
  read_over_reals.
  rewrite one_third_R, pi_code, Q2R_0, Q2R_1, half_R.
  replace (x + 0) with x by ring.
  field.
Qed.


(** ** The formulas evaluated in the arithmetic, over the reals *)

Lemma machine_pi_R : machine_pi (T := R) = PI.
Proof. exact pi_code. Qed.

Lemma angle_R (i : ix3) (p : point) : angle i p = PI * (at3 p i + phase i).
Proof.
  unfold angle. rewrite machine_pi_R, one_third_R.
  destruct i; cbn [phase radd rmul dbl RealArith_R]; [| reflexivity ..].
  now rewrite Rplus_0_r.
Qed.

Lemma sine_product_R (p : point) : sine_product p = du order0 p.
Proof. unfold sine_product. rewrite !angle_R. reflexivity. Qed.

Lemma u_machine_R (p : point) : u_machine p = u_exact p.
Proof.
  rewrite u_exact_du. unfold u_machine. rewrite sine_product_R. reflexivity.
Qed.





(** ** The manufactured source on the axis [y = z = 0] *)



End RealReading.

Section DoubleReading.
Import PrimFloat FloatOps SpecFloat FloatAxioms.
Import Double.
Local Open Scope R_scope.

(** ** Doubles as real numbers *)

Lemma value_finite (f : float) (s : bool) (m : positive) (e : Z) :
  Prim2SF f = S754_finite s m e ->
  value f = Some (IZR (if s then Zneg m else Zpos m) * pow2 e).
Proof. intros H. unfold value. rewrite H. reflexivity. Qed.



(** ** Products with a zero factor *)

Lemma mul_zero_finite (a b : float) (s : bool) :
  Prim2SF a = S754_zero s -> finite b = true ->
  exists s' : bool, Prim2SF (a * b)%float = S754_zero s'.
Proof.
  intros Ha Hb. rewrite mul_spec, Ha. unfold finite in Hb.
  destruct (Prim2SF b); try discriminate; eexists; reflexivity.
Qed.

Lemma one_plus_zero (a : float) (s : bool) :
  Prim2SF a = S754_zero s -> (1 + a)%float = 1%float.
Proof. intros Ha. apply Prim2SF_inj. rewrite add_spec, Ha. reflexivity. Qed.

Lemma mul_finite_zero (a b : float) (s : bool) :
  finite a = true -> Prim2SF b = S754_zero s ->
  exists s' : bool, Prim2SF (a * b)%float = S754_zero s'.
Proof.
  intros Ha Hb. rewrite mul_spec, Hb. unfold finite in Ha.
  destruct (Prim2SF a); try discriminate; eexists; reflexivity.
Qed.

(** The two doubles that are zero. *)
Lemma zero_cases (a : float) (s : bool) :
  Prim2SF a = S754_zero s -> a = (if s then (-0)%float else 0%float).
Proof. intros H. apply Prim2SF_inj. rewrite H. destruct s; reflexivity. Qed.

(** ** NaN is absorbing *)

Lemma mul_nan_l (a : float) : (nan * a)%float = nan.
Proof. apply Prim2SF_inj. rewrite mul_spec. reflexivity. Qed.

Lemma mul_nan_r (a : float) : (a * nan)%float = nan.
Proof.
  apply Prim2SF_inj. rewrite mul_spec. destruct (Prim2SF a); reflexivity.
Qed.

Lemma add_nan_r (a : float) : (a + nan)%float = nan.
Proof.
  apply Prim2SF_inj. rewrite add_spec. destruct (Prim2SF a); reflexivity.
Qed.
End DoubleReading.

Section CallbackRounding.
Import PrimFloat.
Import Double Manufactured.
Local Open Scope R_scope.



(** The value [_define_bcs] returns is not, in double arithmetic, a summand
    of the value [_define_source] returns, as C10 has it.  At the position
    [(0.25, 0.5, 0.375)] of the unit cube the product of the three sines is
    [6.87e-17]: [_define_bcs] returns [1 + 6.87e-17] rounded, which is [1],
    while [_define_source] adds 1 and then the product to its running sum.
    For every C library that returns, at the arguments met, the doubles
    listed here (the ones nearest to the exact results), the value of
    [_define_source] differs from the sum of the diffusion contribution, the
    advection contribution and the value of [_define_bcs], in whichever
    order the three are added. *)
Lemma define_source_is_not_a_sum_with_bcs :
  let xyz := (mk3 0.25 0.5 0.375)%float in
  let sines :=
    [(0x1.921fb54442d18p-1, 0x1.6a09e667f3bccp-1);
     (0x1.921fb54442d18p+1, 0x1.1a62633145c07p-53);
     (0x1.1cd675bb04a9bp+1, 0x1.963268b572494p-1)]%float in
  let cosines :=
    [(0x1.921fb54442d18p-1, 0x1.6a09e667f3bcdp-1);
     (0x1.921fb54442d18p+1, -1);
     (0x1.1cd675bb04a9bp+1, -0x1.37af93f9513e7p-1)]%float in
  let nearest := fun m : libm =>
    m_atan m 1%float = 0x1.921fb54442d18p-1%float
    /\ agrees (m_sin m) sines /\ agrees (m_cos m) cosines in
  (exists m : libm, nearest m)
  /\ position xyz = Some (mk3 (1 / 4) (1 / 2) (3 / 8))
  /\ forall (m : libm) (time time' : float) (get get' : cs_get_t float),
       nearest m ->
       let s := get_val (_define_source (A := arith m) time xyz get) in
       let b := get_val (_define_bcs (A := arith m) time' xyz get') in
       let d := diffusion_machine (A := arith m) xyz in
       let a := advection_machine (A := arith m) xyz in
       (s = 0x1.d8ff4138de5d7p+0 /\ b = 1)%float
       /\ (s =? d + a + b)%float = false
       /\ (s =? d + (a + b))%float = false
       /\ (s =? d + b + a)%float = false.
Proof.
  intros xyz sines cosines nearest. subst xyz sines cosines nearest.
  cbv beta. split; [| split].
  - exists (mk_libm
              (table [(0x1.921fb54442d18p-1, 0x1.6a09e667f3bccp-1);
                      (0x1.921fb54442d18p+1, 0x1.1a62633145c07p-53);
                      (0x1.1cd675bb04a9bp+1, 0x1.963268b572494p-1)]%float)
              (table [(0x1.921fb54442d18p-1, 0x1.6a09e667f3bcdp-1);
                      (0x1.921fb54442d18p+1, -1);
                      (0x1.1cd675bb04a9bp+1, -0x1.37af93f9513e7p-1)]%float)
              (fun _ => 0x1.921fb54442d18p-1%float)).
    cbn [agrees m_sin m_cos m_atan]. repeat split; reflexivity.
  - unfold position. cbn [at3 e0 e1 e2].
    rewrite (value_finite 0.25%float false 4503599627370496 (-54)),
      (value_finite 0.5%float false 4503599627370496 (-53)),
      (value_finite 0.375%float false 6755399441055744 (-54)) by reflexivity.
    change (pow2 (-54)) with (/ 18014398509481984).
    change (pow2 (-53)) with (/ 9007199254740992).
    do 2 f_equal; lra.
  - intros m time time' get get'
      (Ha & (Hs1 & Hs2 & Hs3 & _) & (Hc1 & Hc2 & Hc3 & _)).
    cbv -[m_sin m_cos m_atan]. rewrite Ha. cbv -[m_sin m_cos m_atan].
    rewrite Hs1, Hs2, Hs3, Hc1, Hc2, Hc3.
    repeat split; reflexivity.
Qed.
End CallbackRounding.

Section CallbackClaims.
Import Manufactured.
Local Open Scope R_scope.



(** C3.  For every time, position and prior content of the output union,
    [_define_adv_field] leaves in [vect] the vector [(y-0.5, 0.5-x, z)]:
    the three components are written, in any arithmetic; over the reals
    the vector is [beta]; the other two rows of the union keep their
    content. *)
Theorem define_adv_field_is_beta :
  (forall (T : Type) (A : RealArith T) (time : T) (xyz : cs_real_3_t T)
          (get : cs_get_t T),
      get_vect (_define_adv_field time xyz get)
      = mk3 (rsub (at3 xyz i1) (dbl 0.5)) (rsub (dbl 0.5) (at3 xyz i0))
            (at3 xyz i2)
      /\ at3 (tens (_define_adv_field time xyz get)) i1 = at3 (tens get) i1
      /\ at3 (tens (_define_adv_field time xyz get)) i2 = at3 (tens get) i2) /\
  (forall (time x y z : R) (get : cs_get_t R),
      get_vect (_define_adv_field time (mk3 x y z) get)
      = mk3 (y - 0.5) (0.5 - x) z
      /\ get_vect (_define_adv_field time (mk3 x y z) get)
         = beta (mk3 x y z)).
Proof.
  split.
  - intros T A time xyz get. split; [apply define_adv_field_vect |].
    destruct get as [[r0 r1 r2]]. split; reflexivity.
  - intros time x y z get. split; reflexivity.
Qed.

(** C4.  In any arithmetic, what an analytic callback leaves in the member
    it writes depends on its arguments [time] and [xyz] only: two calls
    with the same time and position give the same value whatever the
    output union held before, and the cells of the union outside the
    written member keep their content.  The callbacks have no other input
    than the constant [one_third]. *)
Theorem callbacks_are_pure :
  forall (T : Type) (A : RealArith T) (time : T) (xyz : cs_real_3_t T)
         (get1 get2 : cs_get_t T),
    get_vect (_define_adv_field time xyz get1)
    = get_vect (_define_adv_field time xyz get2)
    /\ get_val (_define_bcs time xyz get1)
       = get_val (_define_bcs time xyz get2)
    /\ get_val (_define_source time xyz get1)
       = get_val (_define_source time xyz get2)
    /\ _define_adv_field time xyz get1
       = mk_get (upd3 (tens get1) i0
                   (get_vect (_define_adv_field time xyz get2)))
    /\ _define_bcs time xyz get1
       = set_val (get_val (_define_bcs time xyz get2)) get1
    /\ _define_source time xyz get1
       = set_val (get_val (_define_source time xyz get2)) get1.
Proof.
  intros T A time xyz get1 get2.
  split; [now rewrite !define_adv_field_vect |].
  split; [unfold _define_bcs; now rewrite !get_val_set_val |].
  split; [apply define_source_val_indep |].
  split; [rewrite define_adv_field_vect; apply define_adv_field_overwrites |].
  split.
  - rewrite (define_bcs_overwrites time xyz get1) at 1. reflexivity.
  - rewrite (define_source_overwrites time xyz get1) at 1.
    now rewrite (define_source_val_indep time xyz get1 get2).
Qed.


(** C10 (amended).  In any arithmetic, the product
    [sin(pi x) sin(pi (y+0.5)) sin(pi (z+1/3))] that [_define_source] adds
    last is the product that [_define_bcs] adds to 1 at the same position,
    computed by the same operations; [_define_source] adds 1 and then this
    product to the advection contribution.  Read over the real numbers,
    where addition is associative, the sum [_define_source] forms is the
    diffusion contribution plus the advection contribution plus the value
    [_define_bcs] forms, which is [u]. *)
Theorem source_adds_one_and_the_product_of_bcs :
  (forall (T : Type) (A : RealArith T) (time time' : T)
          (xyz : cs_real_3_t T) (get get' : cs_get_t T),
      get_val (_define_bcs time' xyz get')
      = radd (of_int 1) (sine_product xyz)
      /\ get_val (_define_source time xyz get)
         = radd (diffusion_machine xyz)
             (radd (radd (advection_machine xyz) (of_int 1))
                (sine_product xyz))) /\
  (forall p : point,
      diffusion_machine p + (advection_machine p + 1 + sine_product p)
      = diffusion_machine p + advection_machine p + (1 + sine_product p)
      /\ 1 + sine_product p = u_exact p).
Proof.
  split.
  - intros T A time time' xyz get get'.
    split; [apply define_bcs_sum | apply define_source_sum].
  - intros p. split; [ring |]. exact (u_machine_R p).
Qed.
End CallbackClaims.

Section CallbackExtras.

(** X3.  In any arithmetic, the three callbacks ignore their [time]
    argument: the data they define is stationary. *)
Theorem callbacks_ignore_time :
  forall (T : Type) (A : RealArith T) (time1 time2 : T)
         (xyz : cs_real_3_t T) (get : cs_get_t T),
    _define_adv_field time1 xyz get = _define_adv_field time2 xyz get
    /\ _define_bcs time1 xyz get = _define_bcs time2 xyz get
    /\ _define_source time1 xyz get = _define_source time2 xyz get.
Proof.
  intros T A time1 time2 xyz get. unfold _define_adv_field, _define_bcs,
    _define_source. repeat split.
Qed.
End CallbackExtras.

(* ===================================================================== *)
(** * Part IV.  Properties of the setup model *)
(* ===================================================================== *)

Section TableFacts.
Context {A : Type}.

Lemma assoc_store_same (k : string) (a : A) (l : list (string * A)) :
  assoc k (store k a l) = Some a.
Proof.
  induction l as [| [k' a'] r IH]; simpl.
  - now rewrite String.eqb_refl.
  - destruct (String.eqb k k') eqn:E; simpl.
    + now rewrite String.eqb_refl.
    + now rewrite E.
Qed.

Lemma assoc_store_other (k k' : string) (a : A) (l : list (string * A)) :
  k' <> k -> assoc k' (store k a l) = assoc k' l.
Proof.
  intros Hne. induction l as [| [k0 a0] r IH]; simpl.
  - destruct (String.eqb k' k) eqn:E; [| reflexivity].
    apply String.eqb_eq in E. contradiction.
  - destruct (String.eqb k k0) eqn:E; simpl.
    + apply String.eqb_eq in E. subst k0.
      destruct (String.eqb k' k) eqn:E'; [| reflexivity].
      apply String.eqb_eq in E'. contradiction.
    + destruct (String.eqb k' k0); [reflexivity | exact IH].
Qed.

End TableFacts.

Section OptionClaims.
Variable EvaluatorRef : Type.
Implicit Type eq : Equation EvaluatorRef.

Lemma time_theta_domain : assoc "time_theta" option_keys = Some (NumberIn 0 1).
Proof. reflexivity. Qed.

Lemma in_range_iff (lo hi q : Q) :
  in_range lo hi q = true <-> (lo <= q)%Q /\ (q <= hi)%Q.
Proof.
  unfold in_range. rewrite andb_true_iff, !Qle_bool_iff. reflexivity.
Qed.

(** What [cs_equation_set_option] does with the key "time_theta". *)
Lemma set_option_time_theta eq (v : string) :
  cs_equation_set_option eq "time_theta" v
  = match Text.parse_decimal v with
    | Some q =>
        if in_range 0 1 q
        then Ok (with_options (store "time_theta" (VNumber q) (eq_options eq))
                   eq)
        else Fail (InvalidOption "time_theta" v)
    | None => Fail (InvalidOption "time_theta" v)
    end.
Proof.
  unfold cs_equation_set_option. rewrite time_theta_domain.
  unfold validate. destruct (Text.parse_decimal v) as [q |]; [| reflexivity].
  destruct (in_range 0 1 q); reflexivity.
Qed.

(** A text that is not a number is refused as well. *)
Lemma set_option_time_theta_not_a_number eq (v : string) :
  Text.parse_decimal v = None ->
  cs_equation_set_option eq "time_theta" v
  = Fail (InvalidOption "time_theta" v).
Proof. intros H. now rewrite set_option_time_theta, H. Qed.

(** C5.  Setting the key "time_theta" to the text [v] of a number [q]
    succeeds when [0 <= q <= 1], and the equation then has [q] under the
    key and its other settings as before; it fails with [InvalidOption]
    when [q] is outside [0,1], and the equation is then as it was.  In
    particular "1.5" fails and "0.5" succeeds. *)
Theorem set_option_time_theta_range :
  forall eq (v : string) (q : Q),
    Text.parse_decimal v = Some q ->
    let r := cs_equation_set_option eq "time_theta" v in
    ((0 <= q)%Q /\ (q <= 1)%Q ->
       r = Ok (with_options (store "time_theta" (VNumber q) (eq_options eq)) eq)
       /\ option_of (after eq r) "time_theta" = Some (VNumber q)
       /\ (forall key : string,
              key <> "time_theta" ->
              option_of (after eq r) key = option_of eq key))
    /\ (~ ((0 <= q)%Q /\ (q <= 1)%Q) ->
          r = Fail (InvalidOption "time_theta" v) /\ after eq r = eq)
    /\ cs_equation_set_option eq "time_theta" "1.5"
       = Fail (InvalidOption "time_theta" "1.5")
    /\ succeeds (cs_equation_set_option eq "time_theta" "0.5") = true.
Proof.
  intros eq v q Hv r. subst r.
  rewrite !set_option_time_theta, Hv.
  split; [| split; [| split; reflexivity]].
  - intros Hq. apply in_range_iff in Hq. rewrite Hq. split; [reflexivity |].
    unfold after, option_of. simpl. split; [apply assoc_store_same |].
    intros key Hkey. apply assoc_store_other, Hkey.
  - intros Hq. destruct (in_range 0 1 q) eqn:E.
    + apply in_range_iff in E. contradiction.
    + split; reflexivity.
Qed.
End OptionClaims.

Lemma set_option_time_theta_range_witness :
  Text.parse_decimal "1.5" = Some 1.5%Q
  /\ ~ ((0 <= 1.5)%Q /\ (1.5 <= 1)%Q)
  /\ cs_equation_set_option example_equation "time_theta" "1.5"
     = Fail (InvalidOption "time_theta" "1.5")
  /\ after example_equation
       (cs_equation_set_option example_equation "time_theta" "1.5")
     = example_equation.
Proof.
  assert (Hparse : Text.parse_decimal "1.5" = Some 1.5%Q) by reflexivity.
  assert (Hout : ~ ((0 <= 1.5)%Q /\ (1.5 <= 1)%Q)).
  { intros [_ H]. unfold Qle in H. simpl in H. lia. }
  split; [exact Hparse |]. split; [exact Hout |].
  exact (proj1 (proj2 (set_option_time_theta_range _ example_equation
                         "1.5" 1.5%Q Hparse)) Hout).
Defined.

Section SourceTermClaims.
Variable EvaluatorRef : Type.
Implicit Type eq : Equation EvaluatorRef.
Implicit Type st : SourceTerm EvaluatorRef.

(** A setting changes one field of the term: it keeps the label, and a
    second setting of the same key leaves nothing of the first. *)
Lemma setting_overwrites (key v1 v2 : string)
    (f1 f2 : SourceTerm EvaluatorRef -> SourceTerm EvaluatorRef) :
  source_term_setting EvaluatorRef key v1 = Some f1 ->
  source_term_setting EvaluatorRef key v2 = Some f2 ->
  forall st, st_label (f1 st) = st_label st /\ f2 (f1 st) = f2 st.
Proof.
  unfold source_term_setting. intros H1 H2 st.
  destruct (String.eqb key "quadrature").
  - destruct (assoc v1 quadratures); [| discriminate].
    destruct (assoc v2 quadratures); [| discriminate].
    injection H1 as <-. injection H2 as <-. split; reflexivity.
  - destruct (String.eqb key "post"); [| discriminate].
    destruct (Text.parse_int v1); [| discriminate].
    destruct (Text.parse_int v2); [| discriminate].
    injection H1 as <-. injection H2 as <-. split; reflexivity.
Qed.

Lemma setting_keeps_label (key v : string)
    (f : SourceTerm EvaluatorRef -> SourceTerm EvaluatorRef) st :
  source_term_setting EvaluatorRef key v = Some f ->
  st_label (f st) = st_label st.
Proof. intros H. exact (proj1 (setting_overwrites key v v f f H H st)). Qed.






End SourceTermClaims.


Section LinkClaims.
Variable EvaluatorRef : Type.
Implicit Type eq : Equation EvaluatorRef.

(** A valid link succeeds, makes the target the link of the role, leaves
    the other roles alone and warns exactly when the role had a link. *)
Lemma link_valid eq (r : role) (t : target) :
  valid_target r t = true ->
  exists eq', link eq r t = Ok (eq', relink_warning eq r)
              /\ active_link eq' r = Some t
              /\ (forall r', r' <> r -> active_link eq' r' = active_link eq r').
Proof.
  intros Hv. destruct r, t as [p | a]; try discriminate Hv;
    (eexists; split; [reflexivity |]; split; [reflexivity |];
     intros r' Hr'; destruct r'; try reflexivity; contradiction).
Qed.

(** A link of the wrong kind fails. *)
Lemma link_invalid eq (r : role) (t : target) :
  valid_target r t = false -> succeeds (link eq r t) = false.
Proof. destruct r, t; simpl; intros H; try discriminate H; reflexivity. Qed.

(** C7.  For every equation, every role and every pair of valid targets
    [A] then [B] linked to that role in sequence, both links succeed, the
    role then has exactly one link, [B], the links of the other roles are
    as before, the second call raises the warning [Relinked], and the
    equation is the one that linking [B] alone gives. *)
Theorem relink_overwrites_and_warns :
  forall eq (r : role) (A B : target),
    valid_target r A = true ->
    valid_target r B = true ->
    exists eq1 w1 eq2,
      link eq r A = Ok (eq1, w1)
      /\ link eq1 r B = Ok (eq2, [Relinked r])
      /\ links_of eq2 r = [B]
      /\ (forall r', r' <> r -> links_of eq2 r' = links_of eq r')
      /\ link eq r B = Ok (eq2, relink_warning eq r).
Proof.
  intros eq r A B HA HB.
  destruct (link_valid eq r A HA) as (eq1 & H1 & Hact1 & Hoth1).
  destruct (link_valid eq1 r B HB) as (eq2 & H2 & Hact2 & Hoth2).
  exists eq1, (relink_warning eq r), eq2.
  split; [exact H1 |]. split.
  - rewrite H2. unfold relink_warning. rewrite Hact1. reflexivity.
  - split; [unfold links_of; now rewrite Hact2 |]. split.
    + intros r' Hr'. unfold links_of. now rewrite Hoth2, Hoth1.
    + clear - H1 H2 HA HB. destruct r, A, B; try discriminate;
        simpl in *; injection H1 as <-; injection H2 as <-; reflexivity.
Qed.
End LinkClaims.

Lemma relink_overwrites_and_warns_witness :
  valid_target RDiffusion (TProperty (mkPropertyRef "propA")) = true
  /\ valid_target RDiffusion (TProperty (mkPropertyRef "propB")) = true
  /\ exists eq1 w1 eq2,
       cs_equation_link example_equation "diffusion"
         (TProperty (mkPropertyRef "propA")) = Ok (eq1, w1)
       /\ cs_equation_link eq1 "diffusion"
            (TProperty (mkPropertyRef "propB")) = Ok (eq2, [Relinked RDiffusion])
       /\ links_of eq2 RDiffusion = [TProperty (mkPropertyRef "propB")].
Proof.
  split; [reflexivity |]. split; [reflexivity |].
  destruct (relink_overwrites_and_warns _ example_equation RDiffusion
              (TProperty (mkPropertyRef "propA"))
              (TProperty (mkPropertyRef "propB")) eq_refl eq_refl)
    as (eq1 & w1 & eq2 & H1 & H2 & H3 & _).
  exists eq1, w1, eq2. repeat split; assumption.
Defined.

(** The three links of [cs_user_cdo_set_domain] link three different
    roles: they succeed without a warning. *)
Example set_domain_links_run :
  exists eq',
    set_domain_links example_equation (mkPropertyRef "rho.cp")
      (mkPropertyRef "conductivity") (mkAdvectionFieldRef "adv_field")
    = Ok (eq', [])
    /\ links_of eq' RTime = [TProperty (mkPropertyRef "rho.cp")]
    /\ links_of eq' RDiffusion = [TProperty (mkPropertyRef "conductivity")]
    /\ links_of eq' RAdvection
       = [TAdvectionField (mkAdvectionFieldRef "adv_field")].
Proof. eexists. repeat split. Qed.

Section DomainClaims.
Variable EvaluatorRef : Type.
Implicit Type d : Domain EvaluatorRef.

Lemma predefined_eqb_refl (tag : predefined_equation) :
  predefined_eqb tag tag = true.
Proof. destruct tag; reflexivity. Qed.

Lemma activate_activates (tag : predefined_equation) d :
  exists d1, activatePredefinedEquation tag d = Ok d1
             /\ is_activated tag d1 = true.
Proof.
  unfold activatePredefinedEquation.
  destruct (is_activated tag d) eqn:E.
  - exists d. split; [reflexivity | exact E].
  - eexists. split; [reflexivity |].
    unfold is_activated. simpl. now rewrite predefined_eqb_refl.
Qed.

Lemma activate_when_activated (tag : predefined_equation) d :
  is_activated tag d = true -> activatePredefinedEquation tag d = Ok d.
Proof. intros H. unfold activatePredefinedEquation. now rewrite H. Qed.

(** C9.  Activating the wall distance never fails, and activating it a
    second time returns the domain the first activation gave: the two
    calls in sequence give what one call gives. *)
Theorem activate_wall_distance_idempotent :
  forall d,
    exists d1,
      cs_domain_activate_wall_distance d = Ok d1
      /\ cs_domain_activate_wall_distance d1 = Ok d1
      /\ is_activated WallDistance d1 = true
      /\ (d' <- cs_domain_activate_wall_distance d ;;
          cs_domain_activate_wall_distance d')
         = cs_domain_activate_wall_distance d.
Proof.
  intros d. unfold cs_domain_activate_wall_distance.
  destruct (activate_activates WallDistance d) as (d1 & H1 & Hact).
  exists d1. split; [exact H1 |].
  pose proof (activate_when_activated WallDistance d1 Hact) as H2.
  split; [exact H2 |]. split; [exact Hact |]. rewrite H1. simpl. exact H2.
Qed.
End DomainClaims.

(** The activation of [cs_user_cdo_init_domain], run twice. *)
Example init_domain_wall_distance_twice :
  (d <- init_domain_wall_distance example_domain ;;
   init_domain_wall_distance d)
  = init_domain_wall_distance example_domain
  /\ init_domain_wall_distance example_domain
     = Ok (with_predefined [WallDistance] example_domain).
Proof. split; reflexivity. Qed.

Section TimeLoopClaims.
Local Open Scope Q_scope.







End TimeLoopClaims.



(* ===================================================================== *)
(** * Part V.  Further properties of the analytic callbacks *)
(* ===================================================================== *)

Section CallbackAnalysis.
Import Manufactured Analysis.
Local Open Scope R_scope.

Lemma cond_tensor_K (i j : ix3) : at33 (cond_tensor (T := R)) i j = K i j.
Proof.
  destruct i, j; cbn [at33 at3 cond_tensor e0 e1 e2 K dbl RealArith_R];
    first [apply Q2R_1 | apply Q2R_0 | reflexivity].
Qed.

Lemma contract_cond (H : ix3 -> ix3 -> R) :
  (forall i j, H i j = H j i) ->
  contract cond_tensor H
  = sum3 (fun i => K i i * H i i)
    + 2 * (K i0 i1 * H i0 i1 + K i0 i2 * H i0 i2 + K i1 i2 * H i1 i2).
Proof.
  intros Hs. unfold contract, sum3. rewrite !cond_tensor_K.
  rewrite (Hs i1 i0), (Hs i2 i0), (Hs i2 i1). unfold K. lra.
Qed.

(** The value of [_define_source] written with the full contraction
    against [cond]. *)
Lemma define_source_contract (time : R) (p : point) (get : cs_get_t R) :
  get_val (_define_source time p get)
  = - contract cond_tensor (fun i j => hess_u i j p)
    + advection_contribution p + u_exact p.
Proof.
  rewrite define_source_val.
  rewrite contract_cond by (intros i j; apply hess_u_sym).
  reflexivity.
Qed.

(** The quadratic form of [cond] as sums of squares. *)
Lemma quad_cond_squares (x y z : R) :
  quad cond_tensor (mk3 x y z)
  = norm2 (mk3 x y z) / 4
    + (3 / 4 * ((x + 2 / 3 * y) * (x + 2 / 3 * y))
       + 3 / 4 * ((z + 2 / 3 * y) * (z + 2 / 3 * y)) + y * y / 12)
  /\ 2 * norm2 (mk3 x y z)
     = quad cond_tensor (mk3 x y z)
       + ((x - y / 2) * (x - y / 2) + (z - y / 2) * (z - y / 2)
          + y * y / 2).
Proof.
  unfold quad, norm2, sum3. rewrite !cond_tensor_K. unfold K.
  cbn [at3 e0 e1 e2]. split; lra.
Qed.

(** X5.  The array [cond] that [_define_source] contracts the second
    derivatives with is symmetric, in any arithmetic, and over the reals
    its quadratic form lies between a quarter of and twice the squared
    length of the vector: the diffusion tensor of the source term is
    uniformly elliptic. *)
Theorem cond_is_elliptic :
  (forall (T : Type) (A : RealArith T) (i j : ix3),
      at33 (cond_tensor (T := T)) i j = at33 cond_tensor j i)
  /\ (forall (time : R) (p : point) (get : cs_get_t R),
         get_val (_define_source time p get)
         = - contract cond_tensor (fun i j => hess_u i j p)
           + advection_contribution p + u_exact p)
  /\ (forall v : point,
         norm2 v / 4 <= quad cond_tensor v <= 2 * norm2 v).
Proof.
  split; [intros T A i j; destruct i, j; reflexivity |].
  split; [exact define_source_contract |].
  intros [x y z].
  destruct (quad_cond_squares x y z) as [Hlow Hup].
  pose proof (Rle_0_sqr (x + 2 / 3 * y)) as H1.
  pose proof (Rle_0_sqr (z + 2 / 3 * y)) as H2.
  pose proof (Rle_0_sqr (x - y / 2)) as H3.
  pose proof (Rle_0_sqr (z - y / 2)) as H4.
  pose proof (Rle_0_sqr y) as H5. unfold Rsqr in *.
  split; lra.
Qed.

End CallbackAnalysis.

Section CallbackSharing.
Context {T : Type} {A : RealArith T}.

End CallbackSharing.

Section CallbackDouble.
Import PrimFloat FloatOps SpecFloat FloatAxioms.
Import Double.

(** X11.  In double arithmetic, on the plane [x = 0] (the inlet face of the
    unit cube) [_define_bcs] returns exactly [1.0]: for every C library
    with [sin(0.0) = 0.0] and [sin(-0.0) = -0.0], when the computed [pi] is
    finite and so are the sines of [pi (y+0.5)] and [pi (z+1/3)]. *)
Theorem define_bcs_is_one_at_inlet :
  forall (m : libm) (time y z : float) (get : cs_get_t float),
    finite (machine_pi (A := arith m)) = true ->
    m_sin m 0%float = 0%float ->
    m_sin m (-0)%float = (-0)%float ->
    finite (m_sin m (angle (A := arith m) i1 (mk3 0%float y z))) = true ->
    finite (m_sin m (angle (A := arith m) i2 (mk3 0%float y z))) = true ->
    get_val (_define_bcs (A := arith m) time (mk3 0%float y z) get)
    = 1%float.
Proof.
  intros m time y z get Hpi Hp Hn Hy Hz.
  change (get_val (_define_bcs (A := arith m) time (mk3 0%float y z) get))
    with (1 + m_sin m (machine_pi (A := arith m) * 0)
              * m_sin m (angle (A := arith m) i1 (mk3 0%float y z))
              * m_sin m (angle (A := arith m) i2 (mk3 0%float y z)))%float.
  destruct (mul_finite_zero (machine_pi (A := arith m)) 0%float false Hpi
              eq_refl) as [s Hs].
  assert (H0 : Prim2SF (m_sin m (machine_pi (A := arith m) * 0)%float)
               = S754_zero s).
  { rewrite (zero_cases _ s Hs). destruct s; [rewrite Hn | rewrite Hp];
      reflexivity. }
  destruct (mul_zero_finite _ _ s H0 Hy) as [s1 H1].
  destruct (mul_zero_finite _ _ s1 H1 Hz) as [s2 H2].
  exact (one_plus_zero _ s2 H2).
Qed.

Lemma define_bcs_is_one_at_inlet_witness :
  let m := mk_libm (fun a => a) (fun a => a)
             (fun _ => 0x1.921fb54442d18p-1%float) in
  let get := mk_get (mk3 (mk3 0 0 0) (mk3 0 0 0) (mk3 0 0 0))%float in
  finite (machine_pi (A := arith m)) = true
  /\ finite (m_sin m (angle (A := arith m) i1 (mk3 0 0.25 0.75)%float))
     = true
  /\ get_val (_define_bcs (A := arith m) 0%float (mk3 0 0.25 0.75)%float get)
     = 1%float.
Proof.
  intros m get. split; [reflexivity |]. split; [reflexivity |].
  apply (define_bcs_is_one_at_inlet m); reflexivity.
Defined.

(** X12.  In double arithmetic, when one of the three sines
    [sin(pi x)], [sin(pi (y+0.5))], [sin(pi (z+1/3))] is a NaN, both scalar
    evaluators return a NaN: every path to the returned value goes through
    the product of the three sines.  A finite position is enough for that:
    at [x = 2^1023] the product [pi x] overflows to infinity, of which the
    sine is a NaN. *)
Theorem scalar_evaluators_propagate_nan :
  forall (m : libm) (time : float) (xyz : cs_real_3_t float)
         (get : cs_get_t float),
    (exists i : ix3, m_sin m (angle (A := arith m) i xyz) = nan) ->
    get_val (_define_bcs (A := arith m) time xyz get) = nan
    /\ get_val (_define_source (A := arith m) time xyz get) = nan.
Proof.
  intros m time xyz get [i Hi].
  assert (P : sine_product (A := arith m) xyz = nan).
  { unfold sine_product. cbn [rsin rmul arith].
    destruct i; rewrite Hi;
      repeat (rewrite mul_nan_l || rewrite mul_nan_r); reflexivity. }
  rewrite define_bcs_sum, define_source_sum, P. cbn [radd arith].
  rewrite !add_nan_r. split; reflexivity.
Qed.

Lemma scalar_evaluators_propagate_nan_witness :
  let m := mk_libm (fun a => if finite a then a else nan) (fun a => a)
             (fun _ => 0x1.921fb54442d18p-1%float) in
  let xyz := (mk3 0x1p+1023 0 0)%float in
  let get := mk_get (mk3 (mk3 0 0 0) (mk3 0 0 0) (mk3 0 0 0))%float in
  finite (at3 xyz i0) = true
  /\ angle (A := arith m) i0 xyz = infinity
  /\ get_val (_define_bcs (A := arith m) 0%float xyz get) = nan
  /\ get_val (_define_source (A := arith m) 0%float xyz get) = nan.
Proof.
  intros m xyz get. split; [reflexivity |]. split; [reflexivity |].
  apply (scalar_evaluators_propagate_nan m 0%float xyz get).
  exists i0. reflexivity.
Defined.
End CallbackDouble.
